(** * TextIt backends for RapidSMS: a shallow embedding

    Two backends live in the repository:
    - [rapidsms_textit/outgoing.py] (module [RapidsmsTextit] below): one
      direct POST of a flat [{phone, text}] program;
    - [rtextit/outgoing.py] (module [Rtextit] below): a signed program of
      [message] commands handed to the provider for a later call back.

    Python values are embedded as [pyval], dictionaries as stdpp's [gmap],
    exceptions as the [exn] type, and the methods of [TextItBackend] as
    computations of a small state-and-exception monad whose state holds the
    backend object ([self]) and the chronological list of calls made to the
    outside world ([trace]). *)

From Stdlib Require Import ZArith String Ascii List Bool Lia.
From Stdlib Require Import Floats.SpecFloat.
From stdpp Require Import gmap strings list fin_maps.

#[local] Set Warnings "-register-all".
#[local] Open Scope string_scope.

(** ** Python values *)

(** The values that [json.loads] produces and that the backends assemble by
    hand: [None], booleans, integers, floats, strings, lists and dictionaries
    with string keys. *)
Inductive pyval : Type :=
  | PNone
  | PBool (b : bool)
  | PInt (z : Z)
  | PFloat (f : spec_float)
  | PStr (s : string)
  | PList (l : list pyval)
  | PDict (d : gmap string pyval).

(** Python's truth value testing, as used by [if not x] and [if x]. *)
Definition truthy (v : pyval) : bool :=
  match v with
  | PNone => false
  | PBool b => b
  | PInt z => negb (z =? 0)%Z
  | PFloat (S754_zero _) => false
  | PFloat _ => true
  | PStr s => negb (String.eqb s "")
  | PList l => match l with [] => false | _ :: _ => true end
  | PDict d => negb (bool_decide (d = ∅))
  end.

(** [d.get(key)] on a value that is a dictionary. *)
Definition dict_get (key : string) (v : pyval) : option pyval :=
  match v with
  | PDict d => d !! key
  | _ => None
  end.

(** ** Strings *)

(** [s.startswith(p)]. *)
Definition startswith (s p : string) : bool := String.prefix p s.

(** [s.replace(old, new)] for a one-character [old], the only form the
    backends and Django's [escape] call. *)
Fixpoint replace (old : ascii) (new : string) (s : string) : string :=
  match s with
  | EmptyString => EmptyString
  | String c rest =>
      if Ascii.eqb c old then new ++ replace old new rest
      else String c (replace old new rest)
  end.

(** The characters of a string, each as a one-character string: what a
    Python [for] loop over a string yields. *)
Fixpoint chars (s : string) : list string :=
  match s with
  | EmptyString => []
  | String c rest => String c EmptyString :: chars rest
  end.

(** [django.utils.html.escape] of the Django releases that run on Python 2
    (the backends use [basestring]): five chained [replace] calls, the
    ampersand first. *)
Definition escape (text : string) : string :=
  replace "'" "&#39;"
    (replace "034" "&quot;"
      (replace ">" "&gt;"
        (replace "<" "&lt;"
          (replace "&" "&amp;" text)))).

(** ** Exceptions *)

(** The two messages [configure] raises [ImproperlyConfigured] with. The
    first is built from the missing key and the [config] argument
    (["... must set '%s'; config is %r" % (key, config)]). *)
Inductive config_msg : Type :=
  | MustSet (key : string) (config : option (gmap string string))
  | NotWithinConfig.

Inductive exn : Type :=
  | ImproperlyConfigured (m : config_msg)
  | AttributeError (name : string)
  | KeyError (key : string)
  | TypeError
  | ValueError
  | UnicodeDecodeError
  | UnboundLocalError (name : string)
  | ConnectionError
  | HTTPError (status : Z)
  | Exception_ (msg : string).

Inductive outcome (A : Type) : Type :=
  | Ok (a : A)
  | Raise (e : exn).
Arguments Ok {A} a.
Arguments Raise {A} e.

(** ** The outside world *)

Record request : Type := Request {
  url : string;
  data : string;
  headers : gmap string string
}.

Record response : Type := Response {
  status_code : Z;
  content : string
}.

(** Calls that leave the process or use the process-wide secret, in the
    order they are made. *)
Inductive call : Type :=
  | SigningDumps (obj : pyval)
  | RequestsPost (r : request).

(** The library functions the backends call, taken as parameters:
    [json.dumps] and [json.loads], Django's [signing.dumps] (which stamps the
    token with the current time, hence its dependence on the history),
    [requests.post], and [str] on values that are not strings. *)
Record env : Type := Env {
  json_dumps : pyval -> outcome string;
  json_loads : string -> outcome pyval;
  signing_dumps : list call -> pyval -> outcome string;
  requests_post : list call -> request -> outcome response;
  str_ : pyval -> string
}.

(** ["... %s" % v]: a string is inserted as it is, any other value through
    [str]. *)
Definition percent_s (E : env) (v : pyval) : string :=
  match v with
  | PStr s => s
  | _ => str_ E v
  end.

(** [Response.raise_for_status] of [requests]: client and server error
    statuses raise, every other status returns. *)
Definition raise_for_status (r : response) : outcome unit :=
  if ((400 <=? status_code r) && (status_code r <? 600))%Z
  then Raise (HTTPError (status_code r))
  else Ok tt.

(** ** The monad of backend methods *)

Record state (B : Type) : Type := State {
  self : B;
  trace : list call
}.
Arguments State {B} self trace.
Arguments self {B} s.
Arguments trace {B} s.

Definition M (B A : Type) : Type := state B -> outcome A * state B.

Definition ret {B A} (a : A) : M B A := fun st => (Ok a, st).

Definition raise {B A} (e : exn) : M B A := fun st => (Raise e, st).

Definition bind {B A C} (m : M B A) (k : A -> M B C) : M B C :=
  fun st =>
    match m st with
    | (Ok a, st') => k a st'
    | (Raise e, st') => (Raise e, st')
    end.

Notation "x <- m ;; k" := (bind m (fun x => k))
  (at level 100, m at next level, right associativity).
Notation "m ;; k" := (bind m (fun _ => k))
  (at level 100, right associativity).

(** Lift a library call that may raise but touches neither [self] nor the
    world. *)
Definition lift {B A} (o : outcome A) : M B A := fun st => (o, st).

Definition get_self {B} : M B B := fun st => (Ok (self st), st).

Definition set_self {B} (b : B) : M B unit :=
  fun st => (Ok tt, State b (trace st)).

(** [signing.dumps(obj)], logged. *)
Definition do_signing_dumps {B} (E : env) (obj : pyval) : M B string :=
  fun st =>
    (signing_dumps E (trace st) obj,
     State (self st) (trace st ++ [SigningDumps obj])).

(** [requests.post(url, data=data, headers=headers)], logged. *)
Definition do_requests_post {B} (E : env) (r : request) : M B response :=
  fun st =>
    (requests_post E (trace st) r,
     State (self st) (trace st ++ [RequestsPost r])).

(** [for x in l: body(x)]. *)
Fixpoint for_each {B A} (l : list A) (body : A -> M B unit) : M B unit :=
  match l with
  | [] => ret tt
  | x :: rest => body x ;; for_each rest body
  end.

(** [d[key]] on a dictionary of strings. *)
Definition getitem {B} (d : gmap string string) (key : string) : M B string :=
  match d !! key with
  | Some v => ret v
  | None => raise (KeyError key)
  end.

(** [result[key]] on a value that [json.loads] returned: only a dictionary
    can be indexed by a string; a list or a string raises [TypeError], as any
    other value does. *)
Definition getitem_val {B} (v : pyval) (key : string) : M B pyval :=
  match v with
  | PDict d =>
      match d !! key with
      | Some x => ret x
      | None => raise (KeyError key)
      end
  | _ => raise TypeError
  end.

(** [result.get(key, default)]: only a dictionary has [get]. *)
Definition get_val {B} (v : pyval) (key : string) (default : pyval) : M B pyval :=
  match v with
  | PDict d =>
      match d !! key with
      | Some x => ret x
      | None => ret default
      end
  | _ => raise (AttributeError "get")
  end.

(** The [identities] argument of [send]: a single string or a list of
    strings. *)
Inductive identities_arg : Type :=
  | IdStr (s : string)
  | IdList (l : list string).

(** [config or {}]. *)
Definition or_empty (config : option (gmap string string)) : gmap string string :=
  match config with
  | Some c => if bool_decide (c = ∅) then ∅ else c
  | None => ∅
  end.

(** What a [for] loop over the [identities] argument visits: the elements of
    a list, the characters of a string. *)
Definition iter_identities (identities : identities_arg) : list string :=
  match identities with
  | IdStr s => chars s
  | IdList l => l
  end.

(** ** [rapidsms_textit/outgoing.py]: direct POST *)

Module RapidsmsTextit.

Definition base_url : string := "https://api.textit.in/api/v1/".

(** The attributes of a [TextItBackend] object; [None] is an attribute that
    has not been assigned yet. *)
Record backend : Type := Backend {
  config : option (gmap string string);
  api_url : option string
}.

Definition get_config : M backend (gmap string string) :=
  b <- get_self ;;
  match config b with
  | Some c => ret c
  | None => raise (AttributeError "config")
  end.

Definition set_config (c : gmap string string) : M backend unit :=
  b <- get_self ;; set_self (Backend (Some c) (api_url b)).

Definition get_api_url : M backend string :=
  b <- get_self ;;
  match api_url b with
  | Some u => ret u
  | None => raise (AttributeError "api_url")
  end.

Definition set_api_url (u : string) : M backend unit :=
  b <- get_self ;; set_self (Backend (config b) (Some u)).

(** [configure(self, config=None, **kwargs)]. *)
Definition configure (cfg : option (gmap string string))
    (kwargs : gmap string pyval) : M backend unit :=
  set_config (or_empty cfg) ;;
  for_each ["api_token"; "number"] (fun key =>
    c <- get_config ;;
    match c !! key with
    | None => raise (ImproperlyConfigured (MustSet key cfg))
    | Some _ => ret tt
    end) ;;
  c <- get_config ;;
  set_api_url (default base_url (c !! "api_url")) ;;
  if negb (bool_decide (kwargs = ∅))
  then raise (ImproperlyConfigured NotWithinConfig)
  else ret tt.

Section WithEnv.
Context (E : env).

(** [textit_post(self, endpoint, params)]; the [logger.debug] line is left
    out. *)
Definition textit_post (endpoint : string) (params : pyval) : M backend unit :=
  data <- lift (json_dumps E params) ;;
  c <- get_config ;;
  token <- getitem c "api_token" ;;
  let headers : gmap string string :=
    {[ "content-type" := "application/json";
       "Authorization" := "Token " ++ token ]} in
  u <- get_api_url ;;
  response <- do_requests_post E (Request (u ++ endpoint ++ ".json") data headers) ;;
  lift (raise_for_status response).

(** The program [send] builds before it posts it (the body of [send] up to
    the call of [textit_post]). *)
Definition send_program (text : string) (identities : identities_arg) : pyval :=
  let identities :=
    match identities with
    | IdStr s => [s]
    | IdList l => l
    end in
  let ids :=
    map (fun id => if negb (startswith id "+") then "+" ++ id else id)
        identities in
  PDict {[ "phone" := PList (PStr <$> ids);
           "text" := PStr (escape text) ]}.

(** [send(self, id_, text, identities, context=None)]. *)
Definition send (id_ : pyval) (text : string) (identities : identities_arg)
    (context : option pyval) : M backend unit :=
  textit_post "sms" (send_program text identities).

End WithEnv.

End RapidsmsTextit.

(** ** [rtextit/outgoing.py]: signed program and call back *)

Module Rtextit.

Definition base_url : string := "https://api.textit.in/api/v1.json".

Record backend : Type := Backend {
  config : option (gmap string string)
}.

Definition get_config : M backend (gmap string string) :=
  b <- get_self ;;
  match config b with
  | Some c => ret c
  | None => raise (AttributeError "config")
  end.

Definition set_config (c : gmap string string) : M backend unit :=
  set_self (Backend (Some c)).

(** [configure(self, config=None, **kwargs)]. *)
Definition configure (cfg : option (gmap string string))
    (kwargs : gmap string pyval) : M backend unit :=
  set_config (or_empty cfg) ;;
  for_each ["api_token"; "number"] (fun key =>
    c <- get_config ;;
    match c !! key with
    | None => raise (ImproperlyConfigured (MustSet key cfg))
    | Some _ => ret tt
    end) ;;
  if negb (bool_decide (kwargs = ∅))
  then raise (ImproperlyConfigured NotWithinConfig)
  else ret tt.

(** The [token] property. *)
Definition token : M backend string :=
  c <- get_config ;; getitem c "api_token".

Section WithEnv.
Context (E : env).

(** [execute_textit_program(self, program)]. *)
Definition execute_textit_program (program : pyval) : M backend unit :=
  signed_program <- do_signing_dumps E program ;;
  c <- get_config ;;
  api_token <- getitem c "api_token" ;;
  let params :=
    PDict {[ "action" := PStr "create";
             "token" := PStr api_token;
             "program" := PStr signed_program ]} in
  data <- lift (json_dumps E params) ;;
  let headers : gmap string string :=
    {[ "accept" := "application/json";
       "content-type" := "application/json" ]} in
  response <- do_requests_post E (Request base_url data headers) ;;
  lift (raise_for_status response) ;;
  result <- lift (json_loads E (content response)) ;;
  success <- getitem_val result "success" ;;
  if negb (truthy success)
  then
    error <- get_val result "error" (PStr "unknown") ;;
    raise (Exception_ ("TextIt error: " ++ percent_s E error))
  else ret tt.

(** One [message] command. *)
Definition message_command (text identity from_ : string) : pyval :=
  PDict {[ "message" :=
    PDict {[ "say" := PDict {[ "value" := PStr text ]};
             "to" := PStr identity;
             "from" := PStr from_;
             "channel" := PStr "TEXT";
             "network" := PStr "SMS" ]} ]}.

(** The local variables the loop of [send] assigns; [program] is unbound
    ([None]) until the body has run once. The dictionary bound to [program]
    holds the list [commands] itself, and is bound again after every
    [append], so its value is the one written here. *)
Record locals : Type := Locals {
  commands : list pyval;
  program : option pyval
}.

Definition loop_body (text from_ : string) (lv : locals) (identity : string)
    : locals :=
  let commands' := (commands lv ++ [message_command text identity from_])%list in
  Locals commands' (Some (PDict {[ "textit" := PList commands' ]})).

(** The value of [program] when the loop of [send] ends. *)
Definition send_program (text from_ : string) (identities : identities_arg)
    : option pyval :=
  program (fold_left (loop_body text from_) (iter_identities identities)
                     (Locals [] None)).

(** [send(self, id_, text, identities, context=None)]. *)
Definition send (id_ : pyval) (text : string) (identities : identities_arg)
    (context : option pyval) : M backend unit :=
  c <- get_config ;;
  number <- getitem c "number" ;;
  let from_ := replace "-" "" number in
  match send_program text from_ identities with
  | None => raise (UnboundLocalError "program")
  | Some program => execute_textit_program program
  end.

End WithEnv.

End Rtextit.

(** ** A sample world *)

(** A configuration as a deployment would give it, one with a key the
    backends do not know, and one that overrides the provider URL. *)
Definition sample_config : gmap string string :=
  {[ "api_token" := "secret"; "number" := "555-000-1111" ]}.

Definition config_with_extra_key : gmap string string :=
  <[ "colour" := "blue" ]> sample_config.

Definition config_with_api_url : gmap string string :=
  <[ "api_url" := "http://localhost:8000/" ]> sample_config.

(** A world in which serialisation and signing succeed and the provider
    answers every POST with [resp], whose body parses to [result]. *)
Definition sample_env (resp : response) (result : outcome pyval) : env :=
  Env (fun _ => Ok "{}")
      (fun _ => result)
      (fun _ _ => Ok "signed")
      (fun _ _ => Ok resp)
      (fun _ => "None").

(** The double quote, as a one-character string. *)
Definition dq : string := String "034" EmptyString.

Definition bad_token_body : string :=
  "{" ++ dq ++ "success" ++ dq ++ ": false, " ++
  dq ++ "error" ++ dq ++ ": " ++ dq ++ "bad token" ++ dq ++ "}".

Definition bad_token_result : pyval :=
  PDict {[ "success" := PBool false; "error" := PStr "bad token" ]}.

Definition bad_token_env : env :=
  sample_env (Response 200 bad_token_body) (Ok bad_token_result).

Definition ok_env : env :=
  sample_env (Response 200 ("{" ++ dq ++ "success" ++ dq ++ ": true}"))
             (Ok (PDict {[ "success" := PBool true ]})).

(** Backends before [configure] has run, and after it has run on
    [sample_config]. *)
Definition fresh1 : state RapidsmsTextit.backend :=
  State (RapidsmsTextit.Backend None None) [].

Definition fresh2 : state Rtextit.backend :=
  State (Rtextit.Backend None) [].

Definition configured1 : state RapidsmsTextit.backend :=
  snd (RapidsmsTextit.configure (Some sample_config) ∅ fresh1).

Definition configured2 : state Rtextit.backend :=
  snd (Rtextit.configure (Some sample_config) ∅ fresh2).

(** A call of [configure] that misses a required key: no mapping at all, or
    a mapping without [api_token] or without [number]. *)
Definition missing_required (cfg : option (gmap string string)) : Prop :=
  match cfg with
  | None => True
  | Some c => c !! "api_token" = None ∨ c !! "number" = None
  end.

(** What the tail of [Rtextit.execute_textit_program] makes of a response,
    written as one function of the response (used to state its outcome). *)
Definition check_response (E : env) (resp : response) : outcome unit :=
  match raise_for_status resp with
  | Raise e => Raise e
  | Ok _ =>
      match json_loads E (content resp) with
      | Raise e => Raise e
      | Ok (PDict d) =>
          match d !! "success" with
          | None => Raise (KeyError "success")
          | Some success =>
              if truthy success then Ok tt
              else Raise (Exception_
                     ("TextIt error: " ++
                      percent_s E (default (PStr "unknown") (d !! "error"))))
          end
      | Ok _ => Raise TypeError
      end
  end.

(** The [say.value] field of a [message] command. *)
Definition say_value (command : pyval) : option pyval :=
  (dict_get "message" command ≫= dict_get "say") ≫= dict_get "value".

(** The signed-program backend after [configure] has run on a mapping that
    sets [api_url]. *)
Definition configured2_with_api_url : state Rtextit.backend :=
  snd (Rtextit.configure (Some config_with_api_url) ∅ fresh2).

(** Worlds in which the provider answers with a server error, with an
    empty JSON object, and in which the connection fails. *)
Definition server_error_env : env :=
  sample_env (Response 503 "Service Unavailable") (Raise ValueError).

Definition empty_object_env : env :=
  sample_env (Response 200 "{}") (Ok (PDict ∅)).

Definition unreachable_env : env :=
  Env (fun _ => Ok "{}")
      (fun _ => Raise ValueError)
      (fun _ _ => Ok "signed")
      (fun _ _ => Raise ConnectionError)
      (fun _ => "None").

(** The headers each backend sends. *)
Definition token_headers (tok : string) : gmap string string :=
  {[ "content-type" := "application/json";
     "Authorization" := "Token " ++ tok ]}.

Definition json_headers : gmap string string :=
  {[ "accept" := "application/json";
     "content-type" := "application/json" ]}.

(** The parameters [execute_textit_program] serialises. *)
Definition create_params (tok signed : string) : pyval :=
  PDict {[ "action" := PStr "create";
           "token" := PStr tok;
           "program" := PStr signed ]}.

(** The state of the signed-program backend once [program] has been signed
    and a request with [body] posted. *)
Definition signed_and_posted (st : state Rtextit.backend) (program : pyval)
    (body : string) : state Rtextit.backend :=
  State (self st)
    (trace st ++
     [SigningDumps program;
      RequestsPost (Request Rtextit.base_url body json_headers)]).

(** * Properties *)

(** ** Running the monad *)

Ltac run :=
  unfold bind, ret, raise, lift, get_self, set_self, getitem,
         do_signing_dumps, do_requests_post; simpl.

Lemma or_empty_lookup (cfg : option (gmap string string)) (k : string) :
  or_empty cfg !! k = match cfg with Some c => c !! k | None => None end.
Proof.
  destruct cfg as [c|]; simpl.
  - case_bool_decide; subst; reflexivity.
  - apply lookup_empty.
Qed.

Lemma or_empty_Some (c : gmap string string) (k : string) :
  is_Some (c !! k) → or_empty (Some c) = c.
Proof.
  intros [v Hv]. simpl. case_bool_decide; subst; reflexivity.
Qed.

(** What [configure] of the direct-POST backend does, in full. *)
Lemma configure1_run cfg kwargs (st : state RapidsmsTextit.backend) :
  RapidsmsTextit.configure cfg kwargs st =
  let c := or_empty cfg in
  let failed := State (RapidsmsTextit.Backend (Some c)
                         (RapidsmsTextit.api_url (self st))) (trace st) in
  let stored := State (RapidsmsTextit.Backend (Some c)
                         (Some (default RapidsmsTextit.base_url (c !! "api_url"))))
                      (trace st) in
  match c !! "api_token", c !! "number" with
  | None, _ => (Raise (ImproperlyConfigured (MustSet "api_token" cfg)), failed)
  | Some _, None => (Raise (ImproperlyConfigured (MustSet "number" cfg)), failed)
  | Some _, Some _ =>
      if bool_decide (kwargs = ∅) then (Ok tt, stored)
      else (Raise (ImproperlyConfigured NotWithinConfig), stored)
  end.
Proof.
  unfold RapidsmsTextit.configure, RapidsmsTextit.set_config,
    RapidsmsTextit.set_api_url, RapidsmsTextit.get_config, for_each.
  run.
  destruct (or_empty cfg !! "api_token"); simpl; [|reflexivity].
  destruct (or_empty cfg !! "number"); simpl; [|reflexivity].
  destruct (bool_decide (kwargs = ∅)); reflexivity.
Qed.

(** What [configure] of the signed-program backend does, in full. *)
Lemma configure2_run cfg kwargs (st : state Rtextit.backend) :
  Rtextit.configure cfg kwargs st =
  let c := or_empty cfg in
  let stored := State (Rtextit.Backend (Some c)) (trace st) in
  match c !! "api_token", c !! "number" with
  | None, _ => (Raise (ImproperlyConfigured (MustSet "api_token" cfg)), stored)
  | Some _, None => (Raise (ImproperlyConfigured (MustSet "number" cfg)), stored)
  | Some _, Some _ =>
      if bool_decide (kwargs = ∅) then (Ok tt, stored)
      else (Raise (ImproperlyConfigured NotWithinConfig), stored)
  end.
Proof.
  unfold Rtextit.configure, Rtextit.set_config, Rtextit.get_config, for_each.
  run.
  destruct (or_empty cfg !! "api_token"); simpl; [|reflexivity].
  destruct (or_empty cfg !! "number"); simpl; [|reflexivity].
  destruct (bool_decide (kwargs = ∅)); reflexivity.
Qed.

(** ** Dispatch *)

(** The request [textit_post] sends once serialisation succeeded and the
    backend is configured, and what becomes of the response. *)
Lemma textit_post_run E endpoint params (st : state RapidsmsTextit.backend)
    c tok u body :
  json_dumps E params = Ok body →
  RapidsmsTextit.config (self st) = Some c →
  c !! "api_token" = Some tok →
  RapidsmsTextit.api_url (self st) = Some u →
  RapidsmsTextit.textit_post E endpoint params st =
  let r := Request (u ++ endpoint ++ ".json") body
             {[ "content-type" := "application/json";
                "Authorization" := "Token " ++ tok ]} in
  (match requests_post E (trace st) r with
   | Ok resp => raise_for_status resp
   | Raise e => Raise e
   end,
   State (self st) (trace st ++ [RequestsPost r])).
Proof.
  intros Hd Hc Ht Hu. unfold RapidsmsTextit.textit_post,
    RapidsmsTextit.get_config, RapidsmsTextit.get_api_url.
  run. rewrite Hd, Hc. simpl. rewrite Ht. simpl. rewrite Hu. simpl.
  destruct (requests_post E (trace st) _); reflexivity.
Qed.

(** [textit_post] leaves [self] alone and makes at most one call to the
    outside: a POST of the serialised program to [api_url + endpoint +
    ".json"]. *)
Lemma textit_post_trace E endpoint params (st : state RapidsmsTextit.backend) :
  let st' := snd (RapidsmsTextit.textit_post E endpoint params st) in
  self st' = self st ∧
  (trace st' = trace st ∨
   ∃ r, trace st' = (trace st ++ [RequestsPost r])%list ∧
        json_dumps E params = Ok (data r) ∧
        ∃ u, RapidsmsTextit.api_url (self st) = Some u ∧
             url r = u ++ endpoint ++ ".json").
Proof.
  unfold RapidsmsTextit.textit_post, RapidsmsTextit.get_config,
    RapidsmsTextit.get_api_url.
  run.
  destruct (json_dumps E params) as [body|]; simpl; [|auto].
  destruct (RapidsmsTextit.config (self st)) as [c|]; simpl; [|auto].
  destruct (c !! "api_token") as [tok|]; simpl; [|auto].
  destruct (RapidsmsTextit.api_url (self st)) as [u|]; simpl; [|auto].
  destruct (requests_post E (trace st) _); simpl;
    (split; [reflexivity|right; eexists; split; [reflexivity|]; simpl; eauto]).
Qed.

(** The calls [execute_textit_program] makes once signing and serialisation
    succeeded on a configured backend, and its outcome. *)
Lemma execute_textit_program_run E program (st : state Rtextit.backend)
    c tok signed body :
  signing_dumps E (trace st) program = Ok signed →
  Rtextit.config (self st) = Some c →
  c !! "api_token" = Some tok →
  json_dumps E (PDict {[ "action" := PStr "create";
                         "token" := PStr tok;
                         "program" := PStr signed ]}) = Ok body →
  Rtextit.execute_textit_program E program st =
  let r := Request Rtextit.base_url body
             {[ "accept" := "application/json";
                "content-type" := "application/json" ]} in
  (match requests_post E (trace st ++ [SigningDumps program]) r with
   | Ok resp => check_response E resp
   | Raise e => Raise e
   end,
   State (self st) ((trace st ++ [SigningDumps program]) ++ [RequestsPost r])).
Proof.
  intros Hs Hc Ht Hd. unfold Rtextit.execute_textit_program,
    Rtextit.get_config, check_response, getitem_val, get_val.
  run. rewrite Hs. simpl. rewrite Hc. simpl. rewrite Ht. simpl.
  rewrite Hd. simpl.
  destruct (requests_post E _ _) as [resp|]; simpl; [|reflexivity].
  destruct (raise_for_status resp); simpl; [|reflexivity].
  destruct (json_loads E (content resp)) as [result|]; simpl; [|reflexivity].
  destruct result as [| | | | | |d]; simpl; try reflexivity.
  destruct (d !! "success") as [success|]; simpl; [|reflexivity].
  destruct (truthy success); simpl; [reflexivity|].
  destruct (d !! "error"); reflexivity.
Qed.

(** [execute_textit_program] leaves [self] alone, signs the program it is
    given first, and then makes at most one POST, to the fixed [base_url]. *)
Lemma execute_textit_program_trace E program (st : state Rtextit.backend) :
  let st' := snd (Rtextit.execute_textit_program E program st) in
  self st' = self st ∧
  (trace st' = (trace st ++ [SigningDumps program])%list ∨
   ∃ r, trace st' =
          ((trace st ++ [SigningDumps program]) ++ [RequestsPost r])%list ∧
        url r = Rtextit.base_url).
Proof.
  unfold Rtextit.execute_textit_program, Rtextit.get_config,
    getitem_val, get_val.
  run.
  destruct (signing_dumps E (trace st) program) as [signed|]; simpl; [|auto].
  destruct (Rtextit.config (self st)) as [c|]; simpl; [|auto].
  destruct (c !! "api_token") as [tok|]; simpl; [|auto].
  destruct (json_dumps E _) as [body|]; simpl; [|auto].
  assert (∀ o : outcome unit * state Rtextit.backend,
    snd o = State (self st)
      ((trace st ++ [SigningDumps program]) ++
       [RequestsPost (Request Rtextit.base_url body
          {[ "accept" := "application/json";
             "content-type" := "application/json" ]})]) →
    self (snd o) = self st ∧
    (trace (snd o) = (trace st ++ [SigningDumps program])%list ∨
     ∃ r, trace (snd o) =
            ((trace st ++ [SigningDumps program]) ++ [RequestsPost r])%list ∧
          url r = Rtextit.base_url)) as Hpost.
  { intros o ->. simpl. split; [reflexivity|]. right. eexists.
    split; reflexivity. }
  apply Hpost.
  destruct (requests_post E _ _) as [resp|]; simpl; [|reflexivity].
  destruct (raise_for_status resp); simpl; [|reflexivity].
  destruct (json_loads E (content resp)) as [result|]; simpl; [|reflexivity].
  destruct result as [| | | | | |d]; simpl; try reflexivity.
  destruct (d !! "success") as [success|]; simpl; [|reflexivity].
  destruct (truthy success); simpl; [reflexivity|].
  destruct (d !! "error"); reflexivity.
Qed.

(** ** The programs [send] builds *)

(** The prefixing of one identity, as the comprehension of [send] does it. *)
Lemma startswith_plus_prepended (id : string) : startswith ("+" ++ id) "+" = true.
Proof. unfold startswith. simpl. destruct id; reflexivity. Qed.

Lemma phone_list text (identities : list string) :
  dict_get "phone" (RapidsmsTextit.send_program text (IdList identities)) =
  Some (PList (PStr <$>
    map (fun id => if negb (startswith id "+") then "+" ++ id else id)
        identities)).
Proof. reflexivity. Qed.

Lemma loop_run text from_ (l : list string) (cs : list pyval) (p : option pyval) :
  fold_left (Rtextit.loop_body text from_) l (Rtextit.Locals cs p) =
  Rtextit.Locals
    (cs ++ map (fun identity => Rtextit.message_command text identity from_) l)
    (match l with
     | [] => p
     | _ :: _ =>
         Some (PDict {[ "textit" := PList
           (cs ++ map (fun identity =>
                         Rtextit.message_command text identity from_) l) ]})
     end).
Proof.
  revert cs p. induction l as [|x l IH]; intros cs p; simpl.
  - rewrite app_nil_r. reflexivity.
  - unfold Rtextit.loop_body at 2. simpl. rewrite IH.
    rewrite <- app_assoc. simpl. destruct l; simpl; [|reflexivity].
    reflexivity.
Qed.

(** The value of [program] after the loop: unbound when nothing was
    visited, else one command per visited identity, in order. *)
Lemma send_program_run text from_ identities :
  Rtextit.send_program text from_ identities =
  match iter_identities identities with
  | [] => None
  | _ :: _ =>
      Some (PDict {[ "textit" := PList
        (map (fun identity => Rtextit.message_command text identity from_)
             (iter_identities identities)) ]})
  end.
Proof.
  unfold Rtextit.send_program. rewrite loop_run. simpl.
  destruct (iter_identities identities); reflexivity.
Qed.

Lemma replace_hyphens (s : string) :
  list_ascii_of_string (replace "-" "" s) =
  List.filter (fun ch => negb (Ascii.eqb ch "-")) (list_ascii_of_string s).
Proof.
  induction s as [|ch s IH]; simpl; [reflexivity|].
  destruct (Ascii.eqb ch "-"); simpl.
  - change ("" ++ replace "-" "" s) with (replace "-" "" s). exact IH.
  - rewrite IH. reflexivity.
Qed.

Lemma message_command_say_value text identity from_ :
  say_value (Rtextit.message_command text identity from_) = Some (PStr text).
Proof. reflexivity. Qed.

(** ** The claims *)

(** C2. In [execute_textit_program] of the signed-program backend, when the
    POST comes back with a 2xx status and its body parses to an object with a
    [success] field: a falsy [success] raises the provider-level exception
    whose message carries the [error] field, or ["unknown"] when the object
    has no [error] field; a truthy [success] returns without error. *)
Theorem execute_checks_success E program (st : state Rtextit.backend)
    c tok signed body resp d success :
  Rtextit.config (self st) = Some c →
  c !! "api_token" = Some tok →
  signing_dumps E (trace st) program = Ok signed →
  json_dumps E (PDict {[ "action" := PStr "create";
                         "token" := PStr tok;
                         "program" := PStr signed ]}) = Ok body →
  requests_post E (trace st ++ [SigningDumps program])
    (Request Rtextit.base_url body
       {[ "accept" := "application/json";
          "content-type" := "application/json" ]}) = Ok resp →
  (200 ≤ status_code resp < 300)%Z →
  json_loads E (content resp) = Ok (PDict d) →
  d !! "success" = Some success →
  fst (Rtextit.execute_textit_program E program st) =
  if truthy success then Ok tt
  else Raise (Exception_
         ("TextIt error: " ++
          match d !! "error" with
          | Some error => percent_s E error
          | None => "unknown"
          end)).
Proof.
  intros Hc Ht Hs Hd Hp Hst Hj Hsucc.
  rewrite (execute_textit_program_run E program st c tok signed body Hs Hc Ht Hd).
  simpl. rewrite Hp. unfold check_response, raise_for_status.
  replace ((400 <=? status_code resp)%Z) with false
    by (symmetry; apply Z.leb_gt; lia).
  simpl. rewrite Hj, Hsucc.
  destruct (truthy success); [reflexivity|].
  destruct (d !! "error"); reflexivity.
Qed.

Lemma execute_checks_success_witness :
  fst (Rtextit.execute_textit_program bad_token_env (PDict ∅) configured2) =
  Raise (Exception_ "TextIt error: bad token").
Proof.
  assert (200 ≤ status_code (Response 200 bad_token_body) < 300)%Z as Hst
    by (simpl; lia).
  exact (execute_checks_success bad_token_env (PDict ∅) configured2
           sample_config "secret" "signed" "{}"
           (Response 200 bad_token_body)
           {[ "success" := PBool false; "error" := PStr "bad token" ]}
           (PBool false)
           eq_refl eq_refl eq_refl eq_refl eq_refl Hst eq_refl eq_refl).
Defined.

(** C3. In the program the direct-POST backend builds from a list of
    identities, the phone at the position of an identity that does not start
    with ['+'] is that identity with ['+'] prepended, and the phone at the
    position of an identity that starts with ['+'] is the identity unchanged;
    building again from the phones gives the same phones. *)
Theorem send_prefixes_plus text (identities : list string) (i : nat) (id : string) :
  identities !! i = Some id →
  ∃ phones : list string,
    dict_get "phone" (RapidsmsTextit.send_program text (IdList identities)) =
      Some (PList (PStr <$> phones)) ∧
    length phones = length identities ∧
    (startswith id "+" = false → phones !! i = Some ("+" ++ id)) ∧
    (startswith id "+" = true → phones !! i = Some id) ∧
    dict_get "phone" (RapidsmsTextit.send_program text (IdList phones)) =
      Some (PList (PStr <$> phones)).
Proof.
  intros Hi.
  exists (map (fun id => if negb (startswith id "+") then "+" ++ id else id)
              identities).
  split; [apply phone_list|].
  split; [apply length_map|].
  split; [|split].
  - intros Hs. rewrite list_lookup_fmap, Hi. simpl. rewrite Hs. reflexivity.
  - intros Hs. rewrite list_lookup_fmap, Hi. simpl. rewrite Hs. reflexivity.
  - rewrite phone_list. do 2 f_equal. f_equal.
    rewrite map_map. apply map_ext. intros a.
    cbv beta. destruct (startswith a "+") eqn:Ha; cbn [negb].
    + rewrite Ha. reflexivity.
    + rewrite startswith_plus_prepended. reflexivity.
Qed.

Lemma send_prefixes_plus_witness :
  ∃ phones : list string,
    dict_get "phone"
      (RapidsmsTextit.send_program "hi" (IdList ["1234567"; "+1234567"])) =
      Some (PList (PStr <$> phones)) ∧
    length phones = 2 ∧
    (startswith "1234567" "+" = false → phones !! 0 = Some "+1234567") ∧
    (startswith "1234567" "+" = true → phones !! 0 = Some "1234567") ∧
    dict_get "phone" (RapidsmsTextit.send_program "hi" (IdList phones)) =
      Some (PList (PStr <$> phones)).
Proof.
  apply (send_prefixes_plus "hi" ["1234567"; "+1234567"] 0 "1234567").
  reflexivity.
Defined.

(** C4. The direct-POST backend puts the HTML-escaped text in its program
    (["<script>"] becomes ["&lt;script&gt;"]), and the body it posts is the
    serialisation of that program; the signed-program backend puts the text
    as it is in the [say.value] field of every command. *)
Theorem text_escaped_or_literal (text : string) (identities : identities_arg) :
  dict_get "text" (RapidsmsTextit.send_program text identities) =
    Some (PStr (escape text)) ∧
  escape "<script>" = "&lt;script&gt;" ∧
  (∀ E id_ context (st : state RapidsmsTextit.backend) r,
     trace (snd (RapidsmsTextit.send E id_ text identities context st)) =
       (trace st ++ [RequestsPost r])%list →
     json_dumps E (RapidsmsTextit.send_program text identities) = Ok (data r)) ∧
  (∀ from_ program,
     Rtextit.send_program text from_ identities = Some program →
     ∃ commands,
       program = PDict {[ "textit" := PList commands ]} ∧
       length commands = length (iter_identities identities) ∧
       Forall (fun command => say_value command = Some (PStr text)) commands).
Proof.
  split; [reflexivity|]. split; [reflexivity|]. split.
  - intros E id_ context st r Htr. unfold RapidsmsTextit.send in Htr.
    destruct (textit_post_trace E "sms"
                (RapidsmsTextit.send_program text identities) st)
      as [_ [Hsame|(r' & Hr' & Hbody & _)]].
    + rewrite Hsame in Htr. apply (f_equal length) in Htr.
      rewrite length_app in Htr. simpl in Htr. lia.
    + rewrite Hr' in Htr. apply app_inv_head in Htr.
      injection Htr as ->. exact Hbody.
  - intros from_ program Hp. rewrite send_program_run in Hp.
    destruct (iter_identities identities) as [|x l] eqn:Hl; [discriminate|].
    injection Hp as <-.
    exists (map (fun identity => Rtextit.message_command text identity from_)
                (x :: l)).
    split; [reflexivity|].
    split; [apply length_map|].
    apply Forall_forall. intros command Hin.
    apply list_elem_of_In, in_map_iff in Hin.
    destruct Hin as (identity & <- & _).
    apply message_command_say_value.
Qed.

Lemma text_escaped_or_literal_witness :
  dict_get "text" (RapidsmsTextit.send_program "<script>" (IdList ["1234567"])) =
    Some (PStr "&lt;script&gt;") ∧
  ∃ commands,
    Rtextit.send_program "<script>" "5550001111" (IdList ["1234567"]) =
      Some (PDict {[ "textit" := PList commands ]}) ∧
    Forall (fun command => say_value command = Some (PStr "<script>")) commands.
Proof.
  destruct (text_escaped_or_literal "<script>" (IdList ["1234567"]))
    as (Hv1 & _ & _ & Hv2).
  split; [exact Hv1|].
  destruct (Hv2 "5550001111" _ eq_refl) as (commands & Hp & _ & Hall).
  exists commands. split; [rewrite <- Hp; reflexivity|exact Hall].
Defined.

(** C5. For a non-empty list of identities and a configured sending number,
    [send] of the signed-program backend hands [execute_textit_program] the
    program [{'textit': commands}] with one [message] command per identity,
    in input order, whose [say.value] is the text, [to] the identity, [from]
    the number without its hyphens, [channel] ["TEXT"] and [network]
    ["SMS"]. *)
Theorem send_builds_one_command_per_identity E id_ text (identities : list string)
    context (st : state Rtextit.backend) c number :
  identities ≠ [] →
  Rtextit.config (self st) = Some c →
  c !! "number" = Some number →
  Rtextit.send E id_ text (IdList identities) context st =
    Rtextit.execute_textit_program E
      (PDict {[ "textit" := PList
         (map (fun identity =>
            PDict {[ "message" :=
              PDict {[ "say" := PDict {[ "value" := PStr text ]};
                       "to" := PStr identity;
                       "from" := PStr (replace "-" "" number);
                       "channel" := PStr "TEXT";
                       "network" := PStr "SMS" ]} ]})
            identities) ]}) st ∧
  list_ascii_of_string (replace "-" "" number) =
    List.filter (fun ch => negb (Ascii.eqb ch "-")) (list_ascii_of_string number) ∧
  replace "-" "" "555-000-1111" = "5550001111".
Proof.
  intros Hne Hc Hn. split; [|split; [apply replace_hyphens|reflexivity]].
  unfold Rtextit.send, Rtextit.get_config. run. rewrite Hc. simpl.
  rewrite Hn. simpl. rewrite send_program_run. simpl.
  destruct identities as [|x l]; [congruence|]. reflexivity.
Qed.

Lemma send_builds_one_command_per_identity_witness :
  Rtextit.send ok_env PNone "hi" (IdList ["1234567"; "+1234567"]) None configured2 =
    Rtextit.execute_textit_program ok_env
      (PDict {[ "textit" := PList
         [ PDict {[ "message" :=
              PDict {[ "say" := PDict {[ "value" := PStr "hi" ]};
                       "to" := PStr "1234567";
                       "from" := PStr "5550001111";
                       "channel" := PStr "TEXT";
                       "network" := PStr "SMS" ]} ]};
           PDict {[ "message" :=
              PDict {[ "say" := PDict {[ "value" := PStr "hi" ]};
                       "to" := PStr "+1234567";
                       "from" := PStr "5550001111";
                       "channel" := PStr "TEXT";
                       "network" := PStr "SMS" ]} ]} ] ]}) configured2.
Proof.
  assert (["1234567"; "+1234567"] ≠ ([] : list string)) as Hne by discriminate.
  exact (proj1 (send_builds_one_command_per_identity ok_env PNone "hi"
                  ["1234567"; "+1234567"] None configured2 sample_config
                  "555-000-1111" Hne eq_refl eq_refl)).
Defined.

(** [configure] never calls the outside world. *)
Lemma configure_trace cfg kwargs (st1 : state RapidsmsTextit.backend)
    (st2 : state Rtextit.backend) :
  trace (snd (RapidsmsTextit.configure cfg kwargs st1)) = trace st1 ∧
  trace (snd (Rtextit.configure cfg kwargs st2)) = trace st2.
Proof.
  rewrite configure1_run, configure2_run. cbv zeta.
  destruct (or_empty cfg !! "api_token"), (or_empty cfg !! "number"),
    (bool_decide (kwargs = ∅)); split; reflexivity.
Qed.

(** C6. When the mapping is missing, or lacks [api_token] or [number],
    [configure] of either backend raises [ImproperlyConfigured] naming a
    missing key, and the list of calls to the outside world is as it was;
    when the mapping has both keys and there are no extra keyword arguments,
    [configure] of either backend returns normally. *)
Theorem configure_requires_keys cfg kwargs (st1 : state RapidsmsTextit.backend)
    (st2 : state Rtextit.backend) :
  (missing_required cfg →
     (∃ key, fst (RapidsmsTextit.configure cfg kwargs st1) =
               Raise (ImproperlyConfigured (MustSet key cfg))) ∧
     trace (snd (RapidsmsTextit.configure cfg kwargs st1)) = trace st1 ∧
     (∃ key, fst (Rtextit.configure cfg kwargs st2) =
               Raise (ImproperlyConfigured (MustSet key cfg))) ∧
     trace (snd (Rtextit.configure cfg kwargs st2)) = trace st2) ∧
  (∀ c, cfg = Some c →
     is_Some (c !! "api_token") → is_Some (c !! "number") → kwargs = ∅ →
     fst (RapidsmsTextit.configure cfg kwargs st1) = Ok tt ∧
     fst (Rtextit.configure cfg kwargs st2) = Ok tt).
Proof.
  split.
  - intros Hmiss.
    destruct (configure_trace cfg kwargs st1 st2) as [Ht1 Ht2].
    assert (or_empty cfg !! "api_token" = None ∨
            or_empty cfg !! "number" = None) as Hlack.
    { rewrite !or_empty_lookup. destruct cfg; [exact Hmiss|]. left; reflexivity. }
    split; [|split; [exact Ht1|split; [|exact Ht2]]].
    + rewrite configure1_run. cbv zeta.
      destruct (or_empty cfg !! "api_token") eqn:Ha; [|eexists; reflexivity].
      destruct (or_empty cfg !! "number") eqn:Hn; [|eexists; reflexivity].
      destruct Hlack; discriminate.
    + rewrite configure2_run. cbv zeta.
      destruct (or_empty cfg !! "api_token") eqn:Ha; [|eexists; reflexivity].
      destruct (or_empty cfg !! "number") eqn:Hn; [|eexists; reflexivity].
      destruct Hlack; discriminate.
  - intros c -> [a Ha] [n Hn] ->.
    rewrite configure1_run, configure2_run. cbv zeta.
    rewrite !or_empty_lookup, Ha, Hn. split; reflexivity.
Qed.

Lemma configure_requires_keys_witness :
  (∃ key, fst (RapidsmsTextit.configure (Some ∅) ∅ fresh1) =
            Raise (ImproperlyConfigured (MustSet key (Some ∅)))) ∧
  fst (Rtextit.configure (Some sample_config) ∅ fresh2) = Ok tt.
Proof.
  split.
  - apply (configure_requires_keys (Some ∅) ∅ fresh1 fresh2).
    left. reflexivity.
  - assert (is_Some (sample_config !! "api_token")) as Ha by (eexists; reflexivity).
    assert (is_Some (sample_config !! "number")) as Hn by (eexists; reflexivity).
    exact (proj2 (proj2 (configure_requires_keys (Some sample_config) ∅
                           fresh1 fresh2) sample_config eq_refl Ha Hn eq_refl)).
Defined.

(** C7, as the code has it. A mapping with a key the backends do not know is
    accepted: *)
Lemma configure_accepts_unknown_key :
  config_with_extra_key !! "colour" = Some "blue" ∧
  fst (RapidsmsTextit.configure (Some config_with_extra_key) ∅ fresh1) = Ok tt ∧
  fst (Rtextit.configure (Some config_with_extra_key) ∅ fresh2) = Ok tt.
Proof. vm_compute. repeat split; reflexivity. Qed.

(** C7, amended. [configure] of either backend raises
    [ImproperlyConfigured] whenever keyword arguments are passed alongside
    the [config] mapping; the keys inside the mapping other than
    [api_token] and [number] are not looked at, so a mapping with both and no
    keyword arguments is accepted whatever else it holds. *)
Theorem configure_rejects_kwargs cfg kwargs (st1 : state RapidsmsTextit.backend)
    (st2 : state Rtextit.backend) :
  (kwargs ≠ ∅ →
     (∃ m, fst (RapidsmsTextit.configure cfg kwargs st1) =
             Raise (ImproperlyConfigured m)) ∧
     (∃ m, fst (Rtextit.configure cfg kwargs st2) =
             Raise (ImproperlyConfigured m))) ∧
  (∀ c extra value, cfg = Some (<[ extra := value ]> c) →
     extra ≠ "api_token" → extra ≠ "number" →
     is_Some (c !! "api_token") → is_Some (c !! "number") → kwargs = ∅ →
     fst (RapidsmsTextit.configure cfg kwargs st1) = Ok tt ∧
     fst (Rtextit.configure cfg kwargs st2) = Ok tt).
Proof.
  split.
  - intros Hk. rewrite configure1_run, configure2_run. cbv zeta.
    rewrite (bool_decide_eq_false_2 _ Hk).
    destruct (or_empty cfg !! "api_token"), (or_empty cfg !! "number");
      split; eexists; reflexivity.
  - intros c extra value -> He1 He2 [a Ha] [n Hn] ->.
    rewrite configure1_run, configure2_run. cbv zeta.
    rewrite !or_empty_lookup, !lookup_insert_ne, Ha, Hn by done.
    split; reflexivity.
Qed.

Lemma configure_rejects_kwargs_witness :
  (∃ m, fst (RapidsmsTextit.configure (Some sample_config)
               {[ "api_token" := PStr "secret" ]} fresh1) =
          Raise (ImproperlyConfigured m)) ∧
  (∃ m, fst (Rtextit.configure (Some sample_config)
               {[ "api_token" := PStr "secret" ]} fresh2) =
          Raise (ImproperlyConfigured m)).
Proof.
  apply (configure_rejects_kwargs (Some sample_config)
           {[ "api_token" := PStr "secret" ]} fresh1 fresh2).
  intros H. apply (f_equal (fun m => m !! "api_token")) in H.
  rewrite lookup_singleton_eq, lookup_empty in H. discriminate H.
Defined.

(** C8, as the code has it. The signed-program backend does not normalise a
    single string: it loops over its characters, so [send] on ["12"] signs a
    program of two commands, to ["1"] and to ["2"], and differs from [send]
    on [["12"]]. *)
Lemma signed_backend_iterates_over_characters :
  Rtextit.send_program "hi" "5550001111" (IdStr "12") =
    Some (PDict {[ "textit" := PList
      [ Rtextit.message_command "hi" "1" "5550001111";
        Rtextit.message_command "hi" "2" "5550001111" ] ]}) ∧
  Rtextit.send_program "hi" "5550001111" (IdList ["12"]) =
    Some (PDict {[ "textit" := PList
      [ Rtextit.message_command "hi" "12" "5550001111" ] ]}) ∧
  Rtextit.send ok_env PNone "hi" (IdStr "12") None configured2 ≠
  Rtextit.send ok_env PNone "hi" (IdList ["12"]) None configured2.
Proof.
  split; [reflexivity|]. split; [reflexivity|].
  vm_compute. intros H. inversion H.
Qed.

(** C8, amended. [send] of the direct-POST backend takes a single identity
    string or a list of them and treats the string [s] as the list [[s]]:
    same program, same run. [send] of the signed-program backend takes a
    list of identity strings and builds one command per element. *)
Theorem send_normalises_single_identity E id_ text (s : string) context
    (st : state RapidsmsTextit.backend) (from_ x : string) (l : list string) :
  RapidsmsTextit.send_program text (IdStr s) =
    RapidsmsTextit.send_program text (IdList [s]) ∧
  RapidsmsTextit.send E id_ text (IdStr s) context st =
    RapidsmsTextit.send E id_ text (IdList [s]) context st ∧
  Rtextit.send_program text from_ (IdList (x :: l)) =
    Some (PDict {[ "textit" := PList
      (map (fun identity => Rtextit.message_command text identity from_)
           (x :: l)) ]}).
Proof.
  split; [reflexivity|]. split; [reflexivity|].
  rewrite send_program_run. reflexivity.
Qed.

(** C9, as the code has it. The signed-program backend configured with an
    [api_url] still posts to its fixed [base_url]. *)
Lemma signed_backend_ignores_api_url :
  fst (Rtextit.configure (Some config_with_api_url) ∅ fresh2) = Ok tt ∧
  config_with_api_url !! "api_url" = Some "http://localhost:8000/" ∧
  ∃ program r,
    trace (snd (Rtextit.send ok_env PNone "hi" (IdList ["1234567"]) None
                  configured2_with_api_url)) =
      [SigningDumps program; RequestsPost r] ∧
    url r = "https://api.textit.in/api/v1.json" ∧
    url r ≠ "http://localhost:8000/".
Proof.
  split; [vm_compute; reflexivity|]. split; [vm_compute; reflexivity|].
  eexists. eexists. split; [vm_compute; reflexivity|].
  split; [reflexivity|]. simpl. discriminate.
Qed.

(** C9, amended. A successful [configure] of either backend stores the
    mapping it was given. The direct-POST backend also derives [api_url],
    the mapping's [api_url] when it has one and its [base_url] otherwise, and
    [textit_post] posts to that [api_url] followed by the endpoint and
    [".json"]. The signed-program backend derives no [api_url]: every POST of
    [execute_textit_program] goes to its fixed [base_url]. *)
Theorem configure_stores_config cfg kwargs (st1 : state RapidsmsTextit.backend)
    (st2 : state Rtextit.backend) :
  (fst (RapidsmsTextit.configure cfg kwargs st1) = Ok tt →
     ∃ c, cfg = Some c ∧
          self (snd (RapidsmsTextit.configure cfg kwargs st1)) =
            RapidsmsTextit.Backend (Some c)
              (Some (match c !! "api_url" with
                     | Some u => u
                     | None => RapidsmsTextit.base_url
                     end))) ∧
  (fst (Rtextit.configure cfg kwargs st2) = Ok tt →
     ∃ c, cfg = Some c ∧
          self (snd (Rtextit.configure cfg kwargs st2)) =
            Rtextit.Backend (Some c)) ∧
  (∀ E endpoint params (st : state RapidsmsTextit.backend) r,
     trace (snd (RapidsmsTextit.textit_post E endpoint params st)) =
       (trace st ++ [RequestsPost r])%list →
     ∃ u, RapidsmsTextit.api_url (self st) = Some u ∧
          url r = u ++ endpoint ++ ".json") ∧
  (∀ E program (st : state Rtextit.backend) r,
     trace (snd (Rtextit.execute_textit_program E program st)) =
       (trace st ++ [SigningDumps program; RequestsPost r])%list →
     url r = Rtextit.base_url).
Proof.
  split; [|split; [|split]].
  - rewrite configure1_run. cbv zeta.
    destruct (or_empty cfg !! "api_token") as [a|] eqn:Ha; [|discriminate].
    destruct (or_empty cfg !! "number"); [|discriminate].
    destruct (bool_decide (kwargs = ∅)); [|discriminate]. intros _.
    rewrite or_empty_lookup in Ha. destruct cfg as [c|]; [|discriminate].
    exists c. split; [reflexivity|].
    rewrite (or_empty_Some c "api_token") by (rewrite Ha; eauto).
    destruct (c !! "api_url"); reflexivity.
  - rewrite configure2_run. cbv zeta.
    destruct (or_empty cfg !! "api_token") as [a|] eqn:Ha; [|discriminate].
    destruct (or_empty cfg !! "number"); [|discriminate].
    destruct (bool_decide (kwargs = ∅)); [|discriminate]. intros _.
    rewrite or_empty_lookup in Ha. destruct cfg as [c|]; [|discriminate].
    exists c. split; [reflexivity|].
    rewrite (or_empty_Some c "api_token") by (rewrite Ha; eauto).
    reflexivity.
  - intros E endpoint params st r Htr.
    destruct (textit_post_trace E endpoint params st)
      as [_ [Hsame|(r' & Hr' & _ & u & Hu & Hurl)]].
    + rewrite Hsame in Htr. apply (f_equal length) in Htr.
      rewrite length_app in Htr. simpl in Htr. lia.
    + rewrite Hr' in Htr. apply app_inv_head in Htr.
      injection Htr as ->. eauto.
  - intros E program st r Htr.
    destruct (execute_textit_program_trace E program st)
      as [_ [Hsame|(r' & Hr' & Hurl)]].
    + rewrite Hsame in Htr. apply app_inv_head in Htr. discriminate.
    + rewrite Hr', <- app_assoc in Htr. apply app_inv_head in Htr.
      simpl in Htr. injection Htr as ->. exact Hurl.
Qed.

Lemma configure_stores_config_witness :
  ∃ c, Some config_with_api_url = Some c ∧
       self (snd (RapidsmsTextit.configure (Some config_with_api_url) ∅ fresh1)) =
         RapidsmsTextit.Backend (Some c)
           (Some (match c !! "api_url" with
                  | Some u => u
                  | None => RapidsmsTextit.base_url
                  end)).
Proof.
  apply (configure_stores_config (Some config_with_api_url) ∅ fresh1 fresh2).
  vm_compute. reflexivity.
Defined.

(** C10. On a configured backend, [send] of the signed-program backend with
    an empty list of identities raises [UnboundLocalError] for [program] and
    leaves the state, calls to the outside included, as it was; whenever
    [send] does sign or post something, the identities it looped over were
    not empty. *)
Theorem send_empty_identities_unbound E id_ text context
    (st : state Rtextit.backend) c number :
  Rtextit.config (self st) = Some c →
  c !! "number" = Some number →
  Rtextit.send E id_ text (IdList []) context st =
    (Raise (UnboundLocalError "program"), st) ∧
  (∀ identities,
     trace (snd (Rtextit.send E id_ text identities context st)) ≠ trace st →
     iter_identities identities ≠ []).
Proof.
  intros Hc Hn. split.
  - unfold Rtextit.send, Rtextit.get_config. run. rewrite Hc. simpl.
    rewrite Hn. simpl. reflexivity.
  - intros identities Htr Hnil. apply Htr.
    unfold Rtextit.send, Rtextit.get_config. run. rewrite Hc. simpl.
    rewrite Hn. simpl. rewrite send_program_run, Hnil. reflexivity.
Qed.

Lemma send_empty_identities_unbound_witness :
  Rtextit.send ok_env PNone "hi" (IdList []) None configured2 =
    (Raise (UnboundLocalError "program"), configured2).
Proof.
  exact (proj1 (send_empty_identities_unbound ok_env PNone "hi" None
                  configured2 sample_config "555-000-1111" eq_refl eq_refl)).
Defined.

(** * Further properties of the code *)

(** ** [textit_post] and [send] of the direct-POST backend *)

Section DirectPost.
Context (E : env) (st : state RapidsmsTextit.backend).
Context (c : gmap string string) (tok u : string).
Context (Hconfig : RapidsmsTextit.config (self st) = Some c).
Context (Htoken : c !! "api_token" = Some tok).
Context (Hurl : RapidsmsTextit.api_url (self st) = Some u).

(** X1. Once the request is answered, [textit_post] looks at the status code
    only: a status from 400 to 599 raises [HTTPError] with that status, any
    other status (a redirect as much as a 2xx) returns normally, whatever
    the body of the response. *)
Theorem textit_post_outcome_by_status endpoint params body resp :
  json_dumps E params = Ok body →
  requests_post E (trace st)
    (Request (u ++ endpoint ++ ".json") body (token_headers tok)) = Ok resp →
  ((400 ≤ status_code resp < 600)%Z →
     fst (RapidsmsTextit.textit_post E endpoint params st) =
       Raise (HTTPError (status_code resp))) ∧
  ((status_code resp < 400 ∨ 600 ≤ status_code resp)%Z →
     fst (RapidsmsTextit.textit_post E endpoint params st) = Ok tt).
Proof.
  intros Hbody Hresp.
  rewrite (textit_post_run E endpoint params st c tok u body Hbody Hconfig
             Htoken Hurl).
  cbv zeta. unfold token_headers in Hresp. simpl fst. rewrite Hresp.
  unfold raise_for_status. split; intros Hst.
  - replace ((400 <=? status_code resp)%Z) with true
      by (symmetry; apply Z.leb_le; lia).
    replace ((status_code resp <? 600)%Z) with true
      by (symmetry; apply Z.ltb_lt; lia).
    reflexivity.
  - destruct Hst as [Hst|Hst].
    + replace ((400 <=? status_code resp)%Z) with false
        by (symmetry; apply Z.leb_gt; lia).
      reflexivity.
    + replace ((status_code resp <? 600)%Z) with false
        by (symmetry; apply Z.ltb_ge; lia).
      rewrite andb_false_r. reflexivity.
Qed.

(** X2. When [requests.post] itself raises, [textit_post] lets the exception
    through; the one attempt is the only call made (no retry) and [self] is
    untouched. *)
Theorem textit_post_transport_failure endpoint params body e :
  json_dumps E params = Ok body →
  requests_post E (trace st)
    (Request (u ++ endpoint ++ ".json") body (token_headers tok)) = Raise e →
  RapidsmsTextit.textit_post E endpoint params st =
    (Raise e,
     State (self st)
       (trace st ++
        [RequestsPost (Request (u ++ endpoint ++ ".json") body
                         (token_headers tok))])).
Proof.
  intros Hbody Hresp.
  rewrite (textit_post_run E endpoint params st c tok u body Hbody Hconfig
             Htoken Hurl).
  cbv zeta. unfold token_headers in *. rewrite Hresp. reflexivity.
Qed.

(** X3. With an empty list of identities the direct-POST backend still
    posts: one request to the [sms] endpoint whose body is the serialisation
    of a program with an empty phone list. *)
Theorem send_empty_list_still_posts id_ text context body :
  json_dumps E (PDict {[ "phone" := PList [];
                         "text" := PStr (escape text) ]}) = Ok body →
  snd (RapidsmsTextit.send E id_ text (IdList []) context st) =
    State (self st)
      (trace st ++
       [RequestsPost (Request (u ++ "sms" ++ ".json") body (token_headers tok))]).
Proof.
  intros Hbody. unfold RapidsmsTextit.send.
  rewrite (textit_post_run E "sms"
             (RapidsmsTextit.send_program text (IdList [])) st c tok u body
             Hbody Hconfig Htoken Hurl).
  reflexivity.
Qed.

End DirectPost.

Lemma textit_post_outcome_by_status_witness :
  fst (RapidsmsTextit.textit_post server_error_env "sms" (PDict ∅) configured1) =
    Raise (HTTPError 503).
Proof.
  assert (400 ≤ status_code (Response 503 "Service Unavailable") < 600)%Z
    as Hst by (simpl; lia).
  exact (proj1 (textit_post_outcome_by_status server_error_env configured1
                  sample_config "secret" RapidsmsTextit.base_url
                  eq_refl eq_refl eq_refl "sms" (PDict ∅) "{}"
                  (Response 503 "Service Unavailable") eq_refl eq_refl) Hst).
Defined.

Lemma textit_post_transport_failure_witness :
  fst (RapidsmsTextit.textit_post unreachable_env "sms" (PDict ∅) configured1) =
    Raise ConnectionError.
Proof.
  exact (f_equal fst
           (textit_post_transport_failure unreachable_env configured1
              sample_config "secret" RapidsmsTextit.base_url
              eq_refl eq_refl eq_refl "sms" (PDict ∅) "{}" ConnectionError
              eq_refl eq_refl)).
Defined.

Lemma send_empty_list_still_posts_witness :
  trace (snd (RapidsmsTextit.send ok_env PNone "hi" (IdList []) None configured1)) =
    [RequestsPost (Request "https://api.textit.in/api/v1/sms.json" "{}"
                     (token_headers "secret"))].
Proof.
  exact (f_equal trace
           (send_empty_list_still_posts ok_env configured1
              sample_config "secret" RapidsmsTextit.base_url
              eq_refl eq_refl eq_refl PNone "hi" None "{}" eq_refl)).
Defined.

(** X4. [textit_post] makes no call at all when the program cannot be
    serialised or the backend is not ready (no [config], no [api_token] in
    it, or no [api_url]): it raises and leaves the state as it was. *)
Theorem textit_post_not_ready E endpoint params
    (st : state RapidsmsTextit.backend) :
  (∃ e, json_dumps E params = Raise e) ∨
  RapidsmsTextit.config (self st) = None ∨
  (∃ c, RapidsmsTextit.config (self st) = Some c ∧ c !! "api_token" = None) ∨
  RapidsmsTextit.api_url (self st) = None →
  ∃ e, RapidsmsTextit.textit_post E endpoint params st = (Raise e, st).
Proof.
  intros Hnot. unfold RapidsmsTextit.textit_post, RapidsmsTextit.get_config,
    RapidsmsTextit.get_api_url. run.
  destruct (json_dumps E params) as [body|e]; simpl; [|eauto].
  destruct (RapidsmsTextit.config (self st)) as [c|]; simpl; [|eauto].
  destruct (c !! "api_token") as [tok|] eqn:Htok; simpl; [|eauto].
  destruct (RapidsmsTextit.api_url (self st)) as [u|]; simpl; [|eauto].
  destruct Hnot as [[e He]|[Hc|[(c' & Hc & Hno)|Hu]]]; try discriminate.
  injection Hc as <-. congruence.
Qed.

Lemma textit_post_not_ready_witness :
  ∃ e, RapidsmsTextit.textit_post ok_env "sms" (PDict ∅) fresh1 =
         (Raise e, fresh1).
Proof.
  apply (textit_post_not_ready ok_env "sms" (PDict ∅) fresh1).
  right. left. reflexivity.
Defined.

(** X5. After a successful [configure], [send] of the direct-POST backend
    makes exactly one call: a POST to the configured [api_url] (the default
    [base_url] when the mapping has none) followed by ["sms.json"], with the
    serialised program as body and the [api_token] of the mapping in the
    [Authorization] header. *)
Theorem send_after_configure_posts_to_sms E (c : gmap string string) kwargs
    (st : state RapidsmsTextit.backend) id_ text identities context body :
  fst (RapidsmsTextit.configure (Some c) kwargs st) = Ok tt →
  json_dumps E (RapidsmsTextit.send_program text identities) = Ok body →
  ∃ tok,
    c !! "api_token" = Some tok ∧
    trace (snd (RapidsmsTextit.send E id_ text identities context
                  (snd (RapidsmsTextit.configure (Some c) kwargs st)))) =
      (trace st ++
       [RequestsPost
          (Request (match c !! "api_url" with
                    | Some u => u
                    | None => "https://api.textit.in/api/v1/"
                    end ++ "sms.json")%string
                   body
                   {[ "content-type" := "application/json";
                      "Authorization" := ("Token " ++ tok)%string ]})])%list.
Proof.
  intros Hok Hbody. rewrite configure1_run in Hok |- *. cbv zeta in Hok |- *.
  rewrite !or_empty_lookup in Hok |- *.
  destruct (c !! "api_token") as [tok|] eqn:Htok; [|discriminate].
  destruct (c !! "number"); [|discriminate].
  destruct (bool_decide (kwargs = ∅)); [|discriminate].
  exists tok. split; [reflexivity|]. unfold RapidsmsTextit.send.
  erewrite (textit_post_run E "sms" _ _ (or_empty (Some c)) tok _ body Hbody);
    [|reflexivity| |reflexivity].
  - simpl. destruct (c !! "api_url"); reflexivity.
  - rewrite or_empty_lookup. exact Htok.
Qed.

Lemma send_after_configure_posts_to_sms_witness :
  ∃ tok,
    config_with_api_url !! "api_token" = Some tok ∧
    trace (snd (RapidsmsTextit.send ok_env PNone "hi" (IdStr "1234567") None
                  (snd (RapidsmsTextit.configure (Some config_with_api_url) ∅
                          fresh1)))) =
      [RequestsPost
         (Request "http://localhost:8000/sms.json" "{}"
            {[ "content-type" := "application/json";
               "Authorization" := "Token " ++ tok ]})].
Proof.
  exact (send_after_configure_posts_to_sms ok_env config_with_api_url ∅ fresh1
           PNone "hi" (IdStr "1234567") None "{}" eq_refl eq_refl).
Defined.

(** X6. Every phone of the program the direct-POST backend builds starts
    with ['+'], and there are as many phones as identities: one for a single
    string, one per element for a list. *)
Theorem phones_all_start_with_plus text (identities : identities_arg) :
  ∃ phones : list string,
    dict_get "phone" (RapidsmsTextit.send_program text identities) =
      Some (PList (PStr <$> phones)) ∧
    Forall (fun phone => startswith phone "+" = true) phones ∧
    length phones = match identities with
                    | IdStr _ => 1
                    | IdList l => length l
                    end.
Proof.
  set (plus := fun id : string =>
                 if negb (startswith id "+") then "+" ++ id else id).
  assert (∀ l : list string,
            Forall (fun phone => startswith phone "+" = true) (map plus l))
    as Hall.
  { intros l. apply Forall_forall. intros phone Hin.
    apply list_elem_of_In, in_map_iff in Hin. destruct Hin as (id & <- & _).
    unfold plus. destruct (startswith id "+") eqn:Hid; cbn [negb].
    - exact Hid.
    - apply startswith_plus_prepended. }
  destruct identities as [s|l].
  - exists (map plus [s]). split; [reflexivity|]. split; [apply Hall|reflexivity].
  - exists (map plus l). split; [reflexivity|].
    split; [apply Hall|apply length_map].
Qed.

(** X7. [configure] assigns the mapping to [self.config] before it checks
    it: whatever the outcome, the stored configuration is the mapping just
    given (the empty one when none is given). In the direct-POST backend a
    call that fails on a missing key leaves [api_url] as it was. *)
Theorem configure_stores_before_validating (c : gmap string string) kwargs
    (st1 : state RapidsmsTextit.backend) (st2 : state Rtextit.backend) :
  RapidsmsTextit.config
    (self (snd (RapidsmsTextit.configure (Some c) kwargs st1))) = Some c ∧
  Rtextit.config (self (snd (Rtextit.configure (Some c) kwargs st2))) = Some c ∧
  RapidsmsTextit.config
    (self (snd (RapidsmsTextit.configure None kwargs st1))) = Some ∅ ∧
  Rtextit.config (self (snd (Rtextit.configure None kwargs st2))) = Some ∅ ∧
  (c !! "api_token" = None ∨ c !! "number" = None →
   RapidsmsTextit.api_url
     (self (snd (RapidsmsTextit.configure (Some c) kwargs st1))) =
   RapidsmsTextit.api_url (self st1)).
Proof.
  assert (or_empty (Some c) = c) as Hc.
  { simpl. case_bool_decide; subst; reflexivity. }
  rewrite !configure1_run, !configure2_run. cbv zeta. rewrite Hc.
  change (or_empty None) with (∅ : gmap string string).
  rewrite !lookup_empty.
  repeat split.
  - destruct (c !! "api_token"), (c !! "number"),
      (bool_decide (kwargs = ∅)); reflexivity.
  - destruct (c !! "api_token"), (c !! "number"),
      (bool_decide (kwargs = ∅)); reflexivity.
  - intros [Hno|Hno]; rewrite Hno; [reflexivity|].
    destruct (c !! "api_token"); reflexivity.
Qed.

Lemma configure_stores_before_validating_witness :
  RapidsmsTextit.config
    (self (snd (RapidsmsTextit.configure (Some ∅) ∅ configured1))) = Some ∅ ∧
  RapidsmsTextit.api_url
    (self (snd (RapidsmsTextit.configure (Some ∅) ∅ configured1))) =
  RapidsmsTextit.api_url (self configured1).
Proof.
  destruct (configure_stores_before_validating ∅ ∅ configured1 configured2)
    as (H1 & _ & _ & _ & H5).
  split; [exact H1|]. apply H5. left. reflexivity.
Defined.

(** ** The escaped text *)

Lemma list_ascii_of_string_app (a b : string) :
  list_ascii_of_string (a ++ b) =
  (list_ascii_of_string a ++ list_ascii_of_string b)%list.
Proof.
  induction a as [|ch a IH]; [reflexivity|].
  change (String ch a ++ b) with (String ch (a ++ b)).
  simpl. rewrite IH. reflexivity.
Qed.

(** A character of [s.replace(old, new)] comes from [new], or is a character
    of [s] other than [old]. *)
Lemma in_replace (d old : ascii) (new s : string) :
  In d (list_ascii_of_string (replace old new s)) →
  In d (list_ascii_of_string new) ∨
  (d ≠ old ∧ In d (list_ascii_of_string s)).
Proof.
  induction s as [|ch s IH]; simpl; [tauto|].
  destruct (Ascii.eqb ch old) eqn:Hch.
  - rewrite list_ascii_of_string_app, in_app_iff.
    intros [Hnew|Hrest]; [left; exact Hnew|].
    destruct (IH Hrest) as [Hnew|[Hne Hin]]; [left; exact Hnew|].
    right. split; [exact Hne|right; exact Hin].
  - simpl. intros [<-|Hrest].
    + right. split; [|left; reflexivity].
      intros ->. rewrite Ascii.eqb_refl in Hch. discriminate.
    + destruct (IH Hrest) as [Hnew|[Hne Hin]]; [left; exact Hnew|].
      right. split; [exact Hne|right; exact Hin].
Qed.

Lemma replace_absent (old : ascii) (new s : string) :
  ¬ In old (list_ascii_of_string s) → replace old new s = s.
Proof.
  induction s as [|ch s IH]; simpl; [reflexivity|].
  intros Hno. destruct (Ascii.eqb ch old) eqn:Hch.
  - apply Ascii.eqb_eq in Hch. tauto.
  - rewrite IH by tauto. reflexivity.
Qed.

(** X8. The text the direct-POST backend puts in its program holds none of
    the characters [<], [>], the double quote and the single quote, whatever
    the message; and a message with none of these characters and no
    ampersand goes into the program unchanged. *)
Theorem escaped_text_has_no_markup text (identities : identities_arg) (t : string) :
  dict_get "text" (RapidsmsTextit.send_program text identities) =
    Some (PStr t) →
  (∀ ch, In ch ["<"; ">"; "034"; "'"]%char →
         ¬ In ch (list_ascii_of_string t)) ∧
  ((∀ ch, In ch ["&"; "<"; ">"; "034"; "'"]%char →
          ¬ In ch (list_ascii_of_string text)) →
   t = text).
Proof.
  intros Ht. assert (t = escape text) as -> by (injection Ht as <-; reflexivity).
  clear Ht. unfold escape. split.
  - intros ch Hch Hin.
    apply in_replace in Hin as [Hnew|[Hne1 Hin]].
    { simpl in Hch, Hnew. intuition (subst; discriminate). }
    apply in_replace in Hin as [Hnew|[Hne2 Hin]].
    { simpl in Hch, Hnew. intuition (subst; discriminate). }
    apply in_replace in Hin as [Hnew|[Hne3 Hin]].
    { simpl in Hch, Hnew. intuition (subst; discriminate). }
    apply in_replace in Hin as [Hnew|[Hne4 Hin]].
    { simpl in Hch, Hnew. intuition (subst; discriminate). }
    simpl in Hch. intuition congruence.
  - intros Hsafe.
    rewrite (replace_absent "&") by (apply Hsafe; simpl; tauto).
    rewrite (replace_absent "<") by (apply Hsafe; simpl; tauto).
    rewrite (replace_absent ">") by (apply Hsafe; simpl; tauto).
    rewrite (replace_absent "034") by (apply Hsafe; simpl; tauto).
    rewrite (replace_absent "'") by (apply Hsafe; simpl; tauto).
    reflexivity.
Qed.

Lemma escaped_text_has_no_markup_witness :
  (∀ ch, In ch ["<"; ">"; "034"; "'"]%char →
         ¬ In ch (list_ascii_of_string "a &lt; b &amp; c")) ∧
  ((∀ ch, In ch ["&"; "<"; ">"; "034"; "'"]%char →
          ¬ In ch (list_ascii_of_string "a < b & c")) →
   "a &lt; b &amp; c" = "a < b & c").
Proof.
  exact (escaped_text_has_no_markup "a < b & c" (IdList ["1234567"])
           "a &lt; b &amp; c" eq_refl).
Defined.

(** ** [execute_textit_program] and [send] of the signed-program backend *)

Section SignedDispatch.
Context (E : env) (st : state Rtextit.backend) (program : pyval).
Context (c : gmap string string) (tok signed body : string).
Context (Hconfig : Rtextit.config (self st) = Some c).
Context (Htoken : c !! "api_token" = Some tok).
Context (Hsigned : signing_dumps E (trace st) program = Ok signed).
Context (Hbody : json_dumps E (create_params tok signed) = Ok body).

Lemma execute_reaches_post :
  Rtextit.execute_textit_program E program st =
  (match requests_post E (trace st ++ [SigningDumps program])
           (Request Rtextit.base_url body json_headers) with
   | Ok resp => check_response E resp
   | Raise e => Raise e
   end, signed_and_posted st program body).
Proof.
  rewrite (execute_textit_program_run E program st c tok signed body
             Hsigned Hconfig Htoken Hbody).
  cbv zeta. unfold signed_and_posted. rewrite <- app_assoc. reflexivity.
Qed.

(** X9. A response with a status from 400 to 599 makes
    [execute_textit_program] raise [HTTPError] with that status; the body is
    not parsed, and the program has been signed and posted once. *)
Theorem execute_http_error_before_parsing resp :
  requests_post E (trace st ++ [SigningDumps program])
    (Request Rtextit.base_url body json_headers) = Ok resp →
  (400 ≤ status_code resp < 600)%Z →
  Rtextit.execute_textit_program E program st =
    (Raise (HTTPError (status_code resp)), signed_and_posted st program body).
Proof.
  intros Hresp Hst. rewrite execute_reaches_post, Hresp.
  unfold check_response, raise_for_status.
  replace ((400 <=? status_code resp)%Z) with true
    by (symmetry; apply Z.leb_le; lia).
  replace ((status_code resp <? 600)%Z) with true
    by (symmetry; apply Z.ltb_lt; lia).
  reflexivity.
Qed.

(** X10. When the status is no error but the body is not what is expected,
    [execute_textit_program] raises after the POST has been made: the
    exception of [json.loads] when the body does not parse, [TypeError] when
    it parses to something that is not an object, [KeyError] when the object
    has no [success] field. *)
Theorem execute_malformed_result resp :
  requests_post E (trace st ++ [SigningDumps program])
    (Request Rtextit.base_url body json_headers) = Ok resp →
  (status_code resp < 400 ∨ 600 ≤ status_code resp)%Z →
  (∀ e, json_loads E (content resp) = Raise e →
        Rtextit.execute_textit_program E program st =
          (Raise e, signed_and_posted st program body)) ∧
  (∀ result, json_loads E (content resp) = Ok result →
        (∀ d, result ≠ PDict d) →
        Rtextit.execute_textit_program E program st =
          (Raise TypeError, signed_and_posted st program body)) ∧
  (∀ d, json_loads E (content resp) = Ok (PDict d) →
        d !! "success" = None →
        Rtextit.execute_textit_program E program st =
          (Raise (KeyError "success"), signed_and_posted st program body)).
Proof.
  intros Hresp Hst. rewrite execute_reaches_post, Hresp.
  unfold check_response, raise_for_status.
  replace ((400 <=? status_code resp) && (status_code resp <? 600))%Z
    with false.
  2:{ symmetry. apply andb_false_iff.
      destruct Hst; [left; apply Z.leb_gt|right; apply Z.ltb_ge]; lia. }
  split; [|split].
  - intros e ->. reflexivity.
  - intros result -> Hnd. destruct result; try reflexivity.
    exfalso. eapply Hnd. reflexivity.
  - intros d -> ->. reflexivity.
Qed.

(** X11. When [requests.post] itself raises, [execute_textit_program] lets
    the exception through; the program has been signed, and the one attempt
    is the only POST (no retry). *)
Theorem execute_transport_failure e :
  requests_post E (trace st ++ [SigningDumps program])
    (Request Rtextit.base_url body json_headers) = Raise e →
  Rtextit.execute_textit_program E program st =
    (Raise e, signed_and_posted st program body).
Proof.
  intros Hresp. rewrite execute_reaches_post, Hresp. reflexivity.
Qed.

End SignedDispatch.

Lemma execute_http_error_before_parsing_witness :
  fst (Rtextit.execute_textit_program server_error_env (PDict ∅) configured2) =
    Raise (HTTPError 503).
Proof.
  assert (400 ≤ status_code (Response 503 "Service Unavailable") < 600)%Z
    as Hst by (simpl; lia).
  exact (f_equal fst
           (execute_http_error_before_parsing server_error_env configured2
              (PDict ∅) sample_config "secret" "signed" "{}"
              eq_refl eq_refl eq_refl eq_refl
              (Response 503 "Service Unavailable") eq_refl Hst)).
Defined.

Lemma execute_malformed_result_witness :
  fst (Rtextit.execute_textit_program empty_object_env (PDict ∅) configured2) =
    Raise (KeyError "success").
Proof.
  assert (status_code (Response 200 "{}") < 400 ∨
          600 ≤ status_code (Response 200 "{}"))%Z as Hst by (simpl; lia).
  exact (f_equal fst
           (proj2 (proj2
              (execute_malformed_result empty_object_env configured2
                 (PDict ∅) sample_config "secret" "signed" "{}"
                 eq_refl eq_refl eq_refl eq_refl
                 (Response 200 "{}") eq_refl Hst)) ∅ eq_refl eq_refl)).
Defined.

Lemma execute_transport_failure_witness :
  fst (Rtextit.execute_textit_program unreachable_env (PDict ∅) configured2) =
    Raise ConnectionError.
Proof.
  exact (f_equal fst
           (execute_transport_failure unreachable_env configured2
              (PDict ∅) sample_config "secret" "signed" "{}"
              eq_refl eq_refl eq_refl eq_refl ConnectionError eq_refl)).
Defined.

(** X12. When signing raises, or the backend has no [config] or no
    [api_token] in it, [execute_textit_program] raises without posting
    anything: the attempt to sign is the only call made. *)
Theorem execute_not_ready E program (st : state Rtextit.backend) :
  (∃ e, signing_dumps E (trace st) program = Raise e) ∨
  Rtextit.config (self st) = None ∨
  (∃ c, Rtextit.config (self st) = Some c ∧ c !! "api_token" = None) →
  ∃ e, Rtextit.execute_textit_program E program st =
         (Raise e, State (self st) (trace st ++ [SigningDumps program])).
Proof.
  intros Hnot. unfold Rtextit.execute_textit_program, Rtextit.get_config. run.
  destruct (signing_dumps E (trace st) program) as [signed|e]; simpl; [|eauto].
  destruct (Rtextit.config (self st)) as [c|]; simpl; [|eauto].
  destruct (c !! "api_token") as [tok|] eqn:Htok; simpl; [|eauto].
  destruct Hnot as [[e He]|[Hc|(c' & Hc & Hno)]]; try discriminate.
  injection Hc as <-. congruence.
Qed.

Lemma execute_not_ready_witness :
  ∃ e, Rtextit.execute_textit_program ok_env (PDict ∅) fresh2 =
         (Raise e, State (self fresh2) (trace fresh2 ++ [SigningDumps (PDict ∅)])).
Proof.
  apply (execute_not_ready ok_env (PDict ∅) fresh2).
  right. left. reflexivity.
Defined.

(** X13. After a successful [configure], [send] of the signed-program
    backend on a non-empty list signs the program of one command per
    identity and then posts once, to the fixed [base_url], the serialisation
    of [{action: create, token: api_token, program: signed token}] with the
    JSON [accept] and [content-type] headers. *)
Theorem send_after_configure_signs_then_posts E (c : gmap string string) kwargs
    (st : state Rtextit.backend) id_ text (identities : list string) context
    (tok number signed body : string) :
  fst (Rtextit.configure (Some c) kwargs st) = Ok tt →
  c !! "api_token" = Some tok →
  c !! "number" = Some number →
  identities ≠ [] →
  signing_dumps E (trace st)
    (PDict {[ "textit" := PList
       (map (fun identity =>
               Rtextit.message_command text identity (replace "-" "" number))
            identities) ]}) = Ok signed →
  json_dumps E (PDict {[ "action" := PStr "create";
                         "token" := PStr tok;
                         "program" := PStr signed ]}) = Ok body →
  trace (snd (Rtextit.send E id_ text (IdList identities) context
                (snd (Rtextit.configure (Some c) kwargs st)))) =
    (trace st ++
     [SigningDumps
        (PDict {[ "textit" := PList
           (map (fun identity =>
                   Rtextit.message_command text identity
                     (replace "-" "" number))
                identities) ]});
      RequestsPost
        (Request "https://api.textit.in/api/v1.json" body
           {[ "accept" := "application/json";
              "content-type" := "application/json" ]})])%list.
Proof.
  intros Hok Htok Hnum Hne Hsigned Hbody.
  rewrite configure2_run in Hok |- *. cbv zeta in Hok |- *.
  rewrite !or_empty_lookup in Hok |- *.
  rewrite Htok, Hnum in Hok |- *.
  destruct (bool_decide (kwargs = ∅)); [|discriminate].
  assert (or_empty (Some c) = c) as Hc
    by (simpl; case_bool_decide; subst; reflexivity).
  rewrite Hc. simpl snd.
  unfold Rtextit.send, Rtextit.get_config. run. rewrite Hnum. simpl.
  rewrite send_program_run. simpl.
  destruct identities as [|x l]; [congruence|].
  erewrite (execute_textit_program_run E _ _ c tok signed body);
    [|exact Hsigned|reflexivity|exact Htok|exact Hbody].
  simpl. rewrite <- app_assoc. reflexivity.
Qed.

Lemma send_after_configure_signs_then_posts_witness :
  trace (snd (Rtextit.send ok_env PNone "hi" (IdList ["1234567"]) None
                (snd (Rtextit.configure (Some sample_config) ∅ fresh2)))) =
    [SigningDumps
       (PDict {[ "textit" := PList
          [Rtextit.message_command "hi" "1234567" "5550001111"] ]});
     RequestsPost
       (Request "https://api.textit.in/api/v1.json" "{}"
          {[ "accept" := "application/json";
             "content-type" := "application/json" ]})].
Proof.
  assert (["1234567"] ≠ ([] : list string)) as Hne by discriminate.
  exact (send_after_configure_signs_then_posts ok_env sample_config ∅ fresh2
           PNone "hi" ["1234567"] None "secret" "555-000-1111" "signed" "{}"
           eq_refl eq_refl eq_refl Hne eq_refl eq_refl).
Defined.

Lemma chars_map (s : string) :
  chars s = map (fun ch => String ch EmptyString) (list_ascii_of_string s).
Proof. induction s as [|ch s IH]; simpl; [|rewrite IH]; reflexivity. Qed.

(** X14. Given a single string instead of a list, the signed-program
    backend builds one command per character of the string, each addressed
    to that one character; the empty string leaves [program] unbound. *)
Theorem signed_send_on_string text from_ (s : string) :
  Rtextit.send_program text from_ (IdStr s) =
  match s with
  | EmptyString => None
  | String _ _ =>
      Some (PDict {[ "textit" := PList
        (map (fun ch => Rtextit.message_command text (String ch EmptyString) from_)
             (list_ascii_of_string s)) ]})
  end.
Proof.
  rewrite send_program_run. unfold iter_identities. rewrite chars_map.
  destruct s as [|ch s]; [reflexivity|]. simpl. rewrite map_map. reflexivity.
Qed.

(** X15. After a successful [configure] the [token] property returns the
    [api_token] of the mapping, and reading it changes nothing. *)
Theorem token_after_configure (c : gmap string string) kwargs
    (st : state Rtextit.backend) :
  fst (Rtextit.configure (Some c) kwargs st) = Ok tt →
  ∃ tok,
    c !! "api_token" = Some tok ∧
    Rtextit.token (snd (Rtextit.configure (Some c) kwargs st)) =
      (Ok tok, snd (Rtextit.configure (Some c) kwargs st)).
Proof.
  intros Hok. rewrite configure2_run in Hok |- *. cbv zeta in Hok |- *.
  rewrite !or_empty_lookup in Hok |- *.
  destruct (c !! "api_token") as [tok|] eqn:Htok; [|discriminate].
  destruct (c !! "number"); [|discriminate].
  destruct (bool_decide (kwargs = ∅)); [|discriminate].
  exists tok. split; [reflexivity|].
  assert (or_empty (Some c) = c) as Hc
    by (simpl; case_bool_decide; subst; reflexivity).
  rewrite Hc. unfold Rtextit.token, Rtextit.get_config. run.
  rewrite Htok. reflexivity.
Qed.

Lemma token_after_configure_witness :
  ∃ tok,
    sample_config !! "api_token" = Some tok ∧
    Rtextit.token (snd (Rtextit.configure (Some sample_config) ∅ fresh2)) =
      (Ok tok, snd (Rtextit.configure (Some sample_config) ∅ fresh2)).
Proof.
  exact (token_after_configure sample_config ∅ fresh2 eq_refl).
Defined.

(** X16. On a backend without [config], or whose [config] has no [number],
    [send] of the signed-program backend raises ([AttributeError], or
    [KeyError] for [number]) before it signs or posts anything, whatever the
    identities. *)
Theorem send_without_number_makes_no_call E id_ text identities context
    (st : state Rtextit.backend) :
  match Rtextit.config (self st) with
  | None => True
  | Some c => c !! "number" = None
  end →
  Rtextit.send E id_ text identities context st =
    (Raise (match Rtextit.config (self st) with
            | None => AttributeError "config"
            | Some _ => KeyError "number"
            end), st).
Proof.
  intros Hno. unfold Rtextit.send, Rtextit.get_config. run.
  destruct (Rtextit.config (self st)) as [c|]; simpl; [|reflexivity].
  rewrite Hno. reflexivity.
Qed.

Lemma send_without_number_makes_no_call_witness :
  Rtextit.send ok_env PNone "hi" (IdList ["1234567"]) None
    (State (Rtextit.Backend (Some {[ "api_token" := "secret" ]})) []) =
    (Raise (KeyError "number"),
     State (Rtextit.Backend (Some {[ "api_token" := "secret" ]})) []).
Proof.
  exact (send_without_number_makes_no_call ok_env PNone "hi"
           (IdList ["1234567"]) None
           (State (Rtextit.Backend (Some {[ "api_token" := "secret" ]})) [])
           eq_refl).
Defined.
